(** * syft.core.common.serde.serializable

    A shallow embedding of [src/syft/core/common/serde/serializable.py]:
    the [bind_protobuf] class decorator and the [Serializable] base class
    ([named], the four contract methods, the convenience wrappers and
    [serialize]), with the properties of the serialization contract that
    the specification states about them. *)

From Stdlib Require Import ZArith.
From Stdlib.Strings Require Import Byte Ascii String.
From stdpp Require Import base option list strings gmap fin_maps.

Local Open Scope string_scope.
Set Warnings "-register-all".

(** ** Python values *)

(** [bytes] objects. *)
Abbreviation bytes := (list Byte.byte).

(** A protobuf class ([GeneratedProtocolMessageType]) is identified by its
    full name; a Python class by its fully-qualified name. *)
Abbreviation GeneratedProtocolMessageType := string (only parsing).

(** The scalar field values a protobuf message carries. *)
Inductive field : Type :=
| FInt (z : Z)
| FStr (s : string)
| FBytes (b : bytes).

(** A protobuf [Message] instance: the generated class it belongs to and
    the fields set on it, by field name. *)
Record Message : Type := mkMessage {
  msg_schema : GeneratedProtocolMessageType;
  msg_fields : gmap string field
}.

(** The Python objects that flow through this module. *)
Inductive pyval : Type :=
| PNone
| PInt (z : Z)
| PStr (s : string)
| PBytes (b : bytes)
| PType (qualname : string)
| PMessage (m : Message)
| PObject (cls : string) (dict : gmap string pyval).

(** The exceptions this module raises or lets through. *)
Inductive Exc : Type :=
| NotImplementedError
| AttributeError (attr : string)
| ValueError (msg : string)
| Exception (msg : string)
| TypeMismatch (got : pyval) (expected : string).

(** A call either returns a value or raises. *)
Inductive result (A : Type) : Type :=
| Ok (a : A)
| Raise (e : Exc).
Arguments Ok {A} a.
Arguments Raise {A} e.

#[global] Instance result_ret : MRet result := @Ok.
#[global] Instance result_bind : MBind result := fun A B f r =>
  match r with
  | Ok a => f a
  | Raise e => Raise e
  end.

(** ** Classes and instances *)

(** Code of a class that runs when an attribute is read (a property
    getter, [__getattr__]): it sees [self.__dict__], may change it, and
    returns or raises. *)
Abbreviation accessor :=
  (gmap string pyval -> result pyval * gmap string pyval)%type.

(** A subclass of [Serializable]: its [__module__] and [__name__], the
    plain attributes defined on the class, its properties by name, its
    [__getattr__] when it defines one, and the contract methods it
    overrides ([None]: inherited from [Serializable]).  An instance method
    receives [self.__dict__]; the static methods receive their arguments
    only. *)
Record PyClass : Type := mkClass {
  cls_module : string;
  cls_name : string;
  cls_dict : gmap string pyval;
  cls_properties : gmap string accessor;
  cls_getattr : option (string -> accessor);
  cls_object2proto : option (gmap string pyval -> result pyval);
  cls_proto2object : option (pyval -> result pyval);
  cls_get_protobuf_schema : option (result GeneratedProtocolMessageType);
  cls_get_wrapped_type : option (result pyval)
}.

Record Instance : Type := mkInstance {
  inst_class : PyClass;
  inst_dict : gmap string pyval
}.

(** The instance after code of its class ran on its dictionary. *)
Definition ran (self : Instance) (out : result pyval * gmap string pyval)
  : result pyval * Instance :=
  (out.1, mkInstance (inst_class self) out.2).

(** [object.__getattribute__(self, name)]: a property of the class runs its
    getter; otherwise the instance dictionary, then the plain attributes
    of the class; otherwise [AttributeError]. *)
Definition getattribute (self : Instance) (name : string) : result pyval * Instance :=
  match cls_properties (inst_class self) !! name with
  | Some getter => ran self (getter (inst_dict self))
  | None =>
      match inst_dict self !! name with
      | Some v => (Ok v, self)
      | None =>
          match cls_dict (inst_class self) !! name with
          | Some v => (Ok v, self)
          | None => (Raise (AttributeError name), self)
          end
      end
  end.

(** [getattr(self, name)], which is also [self.name]: when the lookup
    raises [AttributeError] and the class defines [__getattr__], that is
    called instead. *)
Definition getattr (self : Instance) (name : string) : result pyval * Instance :=
  match getattribute self name with
  | (Raise (AttributeError a), self') =>
      match cls_getattr (inst_class self') with
      | Some hook => ran self' (hook name (inst_dict self'))
      | None => (Raise (AttributeError a), self')
      end
  | out => out
  end.

(** [hasattr(self, name)]: [getattr] is called; [AttributeError] gives
    [False], any other exception escapes. *)
Definition hasattr (self : Instance) (name : string) : result bool * Instance :=
  match getattr self name with
  | (Ok _, self') => (Ok true, self')
  | (Raise (AttributeError _), self') => (Ok false, self')
  | (Raise e, self') => (Raise e, self')
  end.

(** The attribute is not computed: the class has no property of that name
    and no [__getattr__]. *)
Definition plain_attribute (cls : PyClass) (name : string) : Prop :=
  cls_properties cls !! name = None /\ cls_getattr cls = None.

(** The runtime types [validate_type] is asked about in this module. *)
Inductive pytype : Type := Message_t | bytes_t.

Definition isinstance (v : pyval) (t : pytype) : bool :=
  match t, v with
  | Message_t, PMessage _ => true
  | bytes_t, PBytes _ => true
  | _, _ => false
  end.

(** ** Collaborators outside this file *)

(** google.protobuf: the wire encoder of a message and the parser of a
    generated class.  Both are third-party code; the development is
    parametric in them. *)
Class Protobuf : Type := {
  SerializeToString : Message -> bytes;
  ParseFromString : GeneratedProtocolMessageType -> bytes -> option Message
}.

(** [x.SerializeToString()] on an arbitrary Python value: only protobuf
    messages have the method. *)
Definition call_SerializeToString {pb : Protobuf} (x : pyval) : result bytes :=
  match x with
  | PMessage m => Ok (SerializeToString m)
  | _ => Raise (AttributeError "SerializeToString")
  end.

(** Modelled from the spec: the generated class
    [syft.proto.util.data_message_pb2.DataMessage] is not in the sources.
    Section 6: the envelope is a message with exactly two fields,
    [obj_type : string] and [content : bytes]. *)
Definition DataMessage_schema : GeneratedProtocolMessageType :=
  "syft.util.DataMessage".

Definition DataMessage (obj_type : string) (content : bytes) : Message :=
  {| msg_schema := DataMessage_schema;
     msg_fields := {[ "obj_type" := FStr obj_type; "content" := FBytes content ]} |}.

(** Modelled from the spec: [syft.util.get_fully_qualified_name] is not in
    the sources.  Sections 3 and 8: the fully-qualified type name of the
    instance, as in ["pkg.Point"]. *)
Definition qualname (cls : PyClass) : string :=
  cls_module cls ++ "." ++ cls_name cls.

Definition get_fully_qualified_name (obj : Instance) : string :=
  qualname (inst_class obj).

(** Modelled from the spec: [syft.logger.traceback_and_raise] is not in the
    sources.  Section 7: every error is propagated to the caller; the
    helper logs the exception it is given and raises it, so it returns at
    no type. *)
Definition traceback_and_raise {A : Type} (e : Exc) : result A := Raise e.

(** Modelled from the spec: [syft.util.validate_type] is not in the
    sources.  Section 4.5: assert that the value's runtime shape matches
    the expected output type, failing with [TypeMismatch] if not. *)
Definition type_name (t : pytype) : string :=
  match t with
  | Message_t => "Message"
  | bytes_t => "bytes"
  end.

Definition validate_type (_object : pyval) (_type : pytype) : result pyval :=
  if isinstance _object _type then Ok _object
  else Raise (TypeMismatch _object (type_name _type)).

(** ** The contract methods *)

(** The members of [Serializable]. *)
Module Serializable.

(** The base contract methods: each body is the call of
    [traceback_and_raise]; [_object2proto] has a [raise] of its own
    after it. *)
Definition _proto2object (proto : pyval) : result pyval :=
  traceback_and_raise NotImplementedError.

Definition _object2proto (self : Instance) : result pyval :=
  _ ← traceback_and_raise (A := unit) NotImplementedError;
  Raise NotImplementedError.

Definition get_protobuf_schema : result GeneratedProtocolMessageType :=
  traceback_and_raise NotImplementedError.

Definition get_wrapped_type : result pyval :=
  traceback_and_raise NotImplementedError.

End Serializable.

(** Method resolution: the override of the class when there is one, the
    member of [Serializable] otherwise. *)
Definition object2proto (self : Instance) : result pyval :=
  match cls_object2proto (inst_class self) with
  | Some f => f (inst_dict self)
  | None => Serializable._object2proto self
  end.

Definition proto2object (cls : PyClass) (proto : pyval) : result pyval :=
  match cls_proto2object cls with
  | Some f => f proto
  | None => Serializable._proto2object proto
  end.

Definition get_protobuf_schema (cls : PyClass) : result GeneratedProtocolMessageType :=
  match cls_get_protobuf_schema cls with
  | Some r => r
  | None => Serializable.get_protobuf_schema
  end.

Definition get_wrapped_type (cls : PyClass) : result pyval :=
  match cls_get_wrapped_type cls with
  | Some r => r
  | None => Serializable.get_wrapped_type
  end.

(** ** bind_protobuf *)

(** The [schema2type] attribute of every protobuf class, by class: no
    entry when the attribute was never set ([hasattr] is false), [PNone]
    or [PType] of a class once it was. *)
Abbreviation schema2type_store := (gmap GeneratedProtocolMessageType pyval).

(** [bind_protobuf(cls)]: the decorator returns [cls] and leaves the store
    with the descriptor's [schema2type] set. *)
Definition bind_protobuf (cls : PyClass) (σ : schema2type_store)
  : result (PyClass * schema2type_store) :=
  protobuf_schema ← get_protobuf_schema cls;
  if bool_decide (is_Some (σ !! protobuf_schema))
  then Ok (cls, <[protobuf_schema := PNone]> σ)
  else Ok (cls, <[protobuf_schema := PType (qualname cls)]> σ).

(** The store after one decoration: an exception of [get_protobuf_schema]
    escapes before anything is written. *)
Definition after_bind (σ : schema2type_store) (cls : PyClass) : schema2type_store :=
  match bind_protobuf cls σ with
  | Ok (_, σ') => σ'
  | Raise _ => σ
  end.

(** A sequence of decorations, in program order. *)
Definition bind_all (classes : list PyClass) (σ : schema2type_store)
  : schema2type_store :=
  foldl after_bind σ classes.

(** Whether the class registers against the descriptor [d]. *)
Definition has_schema (d : GeneratedProtocolMessageType) (cls : PyClass) : bool :=
  match get_protobuf_schema cls with
  | Ok d' => bool_decide (d' = d)
  | Raise _ => false
  end.

(** The registrations of a sequence against [d], in order. *)
Definition registered_against (d : GeneratedProtocolMessageType)
    (classes : list PyClass) : list PyClass :=
  List.filter (has_schema d) classes.

(** What [schema2type] of a descriptor holds after registrations against
    it, from what it held before. *)
Definition reverse_mapping (before : option pyval) (regs : list PyClass) : option pyval :=
  match before, regs with
  | _, [] => before
  | None, [cls] => Some (PType (qualname cls))
  | _, _ => Some PNone
  end.

(** ** The Serializable members *)

Definition newline : string := String "010"%char EmptyString.

Definition no_format_message : string :=
  "You must specify at least one deserialization format using" ++ newline ++
  "                            one of the arguments of the serialize() method such as:" ++ newline ++
  "                            to_proto, to_bytes.".

(** [named]: [hasattr] reads the attribute once, [self.name] reads it
    again. *)
Definition named (self : Instance) : result pyval * Instance :=
  match hasattr self "name" with
  | (Ok true, self') => getattr self' "name"
  | (Ok false, self') => (Ok (PStr "UNNAMED"), self')
  | (Raise e, self') => (Raise e, self')
  end.

(** [class_name] *)
Definition class_name (self : Instance) : string :=
  cls_name (inst_class self).

(** [icon] *)
Definition icon : string := "🌾".

(** [pprint]: the f-string evaluates and formats [icon], [named] and
    [class_name] in this order; a [str] is formatted as itself, and
    [py_str] is the built-in [str] on the other values, which may raise. *)
Section Pretty.
Variable py_str : pyval -> result string.

Definition format_value (v : pyval) : result string :=
  match v with
  | PStr s => Ok s
  | _ => py_str v
  end.

Definition pprint (self : Instance) : result string * Instance :=
  match named self with
  | (Ok label, self') =>
      (text ← format_value label;
       Ok (icon ++ " " ++ text ++ " (" ++ class_name self' ++ ")"), self')
  | (Raise e, self') => (Raise e, self')
  end.

End Pretty.

Section Serializable_members.
Context {pb : Protobuf}.

(** [serialize(self, to_proto=True, to_bytes=False)].  The [debug] call
    of the bytes branch only logs. *)
Definition serialize (self : Instance) (to_proto to_bytes : bool) : result pyval :=
  if to_bytes then
    proto ← object2proto self;
    serialized_data ← call_SerializeToString proto;
    let blob := DataMessage (get_fully_qualified_name self) serialized_data in
    Ok (PBytes (SerializeToString blob))
  else if to_proto then
    object2proto self
  else
    traceback_and_raise (Exception no_format_message).

(** The defaults of the keyword arguments. *)
Definition default_to_proto : bool := true.
Definition default_to_bytes : bool := false.

(** [to_proto], [proto]: [serialize(to_proto=True)]. *)
Definition to_proto (self : Instance) : result pyval :=
  r ← serialize self true default_to_bytes;
  validate_type r Message_t.

Definition proto (self : Instance) : result pyval :=
  r ← serialize self true default_to_bytes;
  validate_type r Message_t.

(** [to_bytes], [binary]: [serialize(to_bytes=True)]. *)
Definition to_bytes (self : Instance) : result pyval :=
  r ← serialize self default_to_proto true;
  validate_type r bytes_t.

Definition binary (self : Instance) : result pyval :=
  r ← serialize self default_to_proto true;
  validate_type r bytes_t.

End Serializable_members.

(** ** Concrete classes and a concrete codec

    The classes of the specification's scenario and of the class docstring,
    and a small length-prefixed codec, to run the definitions on. *)
Module Fixtures.

Definition byte_of_nat (n : nat) : byte :=
  default x00 (Byte.of_nat (n mod 256)).

Definition encode_chunk (b : bytes) : bytes :=
  byte_of_nat (length b) :: b.

Definition encode_field (kv : string * field) : bytes :=
  let name := encode_chunk (list_byte_of_string kv.1) in
  match kv.2 with
  | FInt z => x00 :: name ++ encode_chunk [byte_of_nat (Z.to_nat z)]
  | FStr s => x01 :: name ++ encode_chunk (list_byte_of_string s)
  | FBytes b => x02 :: name ++ encode_chunk b
  end.

Definition encode_message (m : Message) : bytes :=
  concat (encode_field <$> map_to_list (msg_fields m)).

Definition decode_chunk (b : bytes) : option (bytes * bytes) :=
  match b with
  | [] => None
  | n :: rest =>
      let k := Byte.to_nat n in
      if (k <=? length rest)%nat then Some (take k rest, drop k rest) else None
  end.

Definition decode_value (kind : byte) (payload : bytes) : option field :=
  match kind, payload with
  | x00, [v] => Some (FInt (Z.of_nat (Byte.to_nat v)))
  | x01, _ => Some (FStr (string_of_list_byte payload))
  | x02, _ => Some (FBytes payload)
  | _, _ => None
  end.

Fixpoint decode_fields (fuel : nat) (b : bytes) : option (list (string * field)) :=
  match b, fuel with
  | [], _ => Some []
  | _ :: _, O => None
  | kind :: rest, S fuel' =>
      '(name, rest1) ← decode_chunk rest;
      '(payload, rest2) ← decode_chunk rest1;
      f ← decode_value kind payload;
      fs ← decode_fields fuel' rest2;
      Some ((string_of_list_byte name, f) :: fs)
  end.

Definition decode_message (schema : string) (b : bytes) : option Message :=
  fs ← decode_fields (length b) b;
  Some (mkMessage schema (list_to_map fs)).

#[export] Instance codec : Protobuf :=
  {| SerializeToString := encode_message; ParseFromString := decode_message |}.

(** [Point{x:int, y:int}] with descriptor [PointPB]. *)
Definition Point : PyClass :=
  {| cls_module := "pkg"; cls_name := "Point"; cls_dict := ∅;
     cls_properties := ∅; cls_getattr := None;
     cls_object2proto := Some (fun d =>
       match d !! "x", d !! "y" with
       | Some (PInt x), Some (PInt y) =>
           Ok (PMessage (mkMessage "pkg.PointPB" {[ "x" := FInt x; "y" := FInt y ]}))
       | None, _ => Raise (AttributeError "x")
       | _, _ => Raise (AttributeError "y")
       end);
     cls_proto2object := Some (fun p =>
       match p with
       | PMessage m =>
           match msg_fields m !! "x", msg_fields m !! "y" with
           | Some (FInt x), Some (FInt y) =>
               Ok (PObject "pkg.Point" {[ "x" := PInt x; "y" := PInt y ]})
           | _, _ => Raise (AttributeError "x")
           end
       | _ => Raise (AttributeError "x")
       end);
     cls_get_protobuf_schema := Some (Ok "pkg.PointPB");
     cls_get_wrapped_type := None |}.

Definition point (x y : Z) : Instance :=
  mkInstance Point {[ "x" := PInt x; "y" := PInt y ]}.

(** The wrapper of the class docstring: [_proto2object] returns the
    wrapped [int], [get_wrapped_type] returns [int]. *)
Definition WrapperInt : PyClass :=
  {| cls_module := "pkg"; cls_name := "WrapperInt"; cls_dict := ∅;
     cls_properties := ∅; cls_getattr := None;
     cls_object2proto := Some (fun d =>
       match d !! "int_obj" with
       | Some (PInt z) =>
           Ok (PMessage (mkMessage "pkg.WrapperIntPB" {[ "value" := FInt z ]}))
       | _ => Raise (AttributeError "int_obj")
       end);
     cls_proto2object := Some (fun p =>
       match p with
       | PMessage m =>
           match msg_fields m !! "value" with
           | Some (FInt z) => Ok (PInt z)
           | _ => Raise (AttributeError "value")
           end
       | _ => Raise (AttributeError "value")
       end);
     cls_get_protobuf_schema := Some (Ok "pkg.WrapperIntPB");
     cls_get_wrapped_type := Some (Ok (PType "builtins.int")) |}.

(** A second class that serializes to [PointPB]. *)
Definition Pixel : PyClass :=
  {| cls_module := "pkg"; cls_name := "Pixel"; cls_dict := ∅;
     cls_properties := ∅; cls_getattr := None;
     cls_object2proto := cls_object2proto Point;
     cls_proto2object := None;
     cls_get_protobuf_schema := Some (Ok "pkg.PointPB");
     cls_get_wrapped_type := None |}.

(** A subclass that overrides nothing, and one whose [_object2proto]
    returns a string. *)
Definition Bare : PyClass :=
  {| cls_module := "pkg"; cls_name := "Bare"; cls_dict := ∅;
     cls_properties := ∅; cls_getattr := None;
     cls_object2proto := None; cls_proto2object := None;
     cls_get_protobuf_schema := None; cls_get_wrapped_type := None |}.

Definition Misshapen : PyClass :=
  {| cls_module := "pkg"; cls_name := "Misshapen"; cls_dict := ∅;
     cls_properties := ∅; cls_getattr := None;
     cls_object2proto := Some (fun _ => Ok (PStr "not a message"));
     cls_proto2object := None;
     cls_get_protobuf_schema := None; cls_get_wrapped_type := None |}.

Definition PointPB_1_2 : Message :=
  mkMessage "pkg.PointPB" {[ "x" := FInt 1; "y" := FInt 2 ]}.

(** [Point(1, 2)] with one more attribute set on it. *)
Definition labelled_point : Instance :=
  mkInstance Point {[ "x" := PInt 1; "y" := PInt 2; "name" := PStr "origin" ]}.

(** A class whose [name] is a property that raises [ValueError]. *)
Definition Moody : PyClass :=
  {| cls_module := "pkg"; cls_name := "Moody"; cls_dict := ∅;
     cls_properties := {[ "name" := fun d => (Raise (ValueError "no name today"), d) ]};
     cls_getattr := None;
     cls_object2proto := None; cls_proto2object := None;
     cls_get_protobuf_schema := None; cls_get_wrapped_type := None |}.

(** A class whose [name] is a property that answers once: the getter
    returns while [asked] is unset, sets it, and raises [AttributeError]
    from then on. *)
Definition Fickle : PyClass :=
  {| cls_module := "pkg"; cls_name := "Fickle"; cls_dict := ∅;
     cls_properties := {[ "name" := fun d =>
       match d !! "asked" with
       | None => (Ok (PStr "once"), <[ "asked" := PInt 1 ]> d)
       | Some _ => (Raise (AttributeError "name"), d)
       end ]};
     cls_getattr := None;
     cls_object2proto := None; cls_proto2object := None;
     cls_get_protobuf_schema := None; cls_get_wrapped_type := None |}.

End Fixtures.

(** ** Results: the error monad *)

Lemma bind_Ok {A B} (f : A -> result B) (a : A) : (Ok a ≫= f) = f a.
Proof. reflexivity. Qed.

Lemma bind_Raise {A B} (f : A -> result B) (e : Exc) : (Raise e ≫= f) = Raise e.
Proof. reflexivity. Qed.

Lemma Ok_inj {A} (a b : A) : Ok a = Ok b -> a = b.
Proof. congruence. Qed.

(** ** Attribute access and named *)



Lemma getattr_plain (self : Instance) (name : string) :
  plain_attribute (inst_class self) name ->
  getattr self name =
    (match inst_dict self !! name with
     | Some v => Ok v
     | None =>
         match cls_dict (inst_class self) !! name with
         | Some v => Ok v
         | None => Raise (AttributeError name)
         end
     end, self).
Proof.
  intros [Hprop Hhook]. unfold getattr, getattribute. rewrite Hprop.
  destruct (inst_dict self !! name); [reflexivity|].
  destruct (cls_dict (inst_class self) !! name); [reflexivity|].
  rewrite Hhook. reflexivity.
Qed.

Lemma named_of_first_read (self : Instance) :
  named self =
    match getattr self "name" with
    | (Ok _, self') => getattr self' "name"
    | (Raise (AttributeError _), self') => (Ok (PStr "UNNAMED"), self')
    | (Raise e, self') => (Raise e, self')
    end.
Proof.
  unfold named, hasattr.
  destruct (getattr self "name") as [[v|e] self']; [reflexivity|].
  destruct e; reflexivity.
Qed.


(** C10 (as the code has it). [named] reads [name] through [hasattr] and,
    when that succeeds, reads it again and gives what the second read
    gives; it returns UNNAMED when the first read raises
    [AttributeError], and any other exception of the first read escapes.
    When [name] is a plain attribute, [named] returns the instance's own
    [name], else the class's, else UNNAMED, and leaves the instance as it
    was. *)
Theorem named_outcome (self : Instance) :
  (forall v self', getattr self "name" = (Ok v, self') ->
     named self = getattr self' "name") /\
  (forall a self', getattr self "name" = (Raise (AttributeError a), self') ->
     named self = (Ok (PStr "UNNAMED"), self')) /\
  (forall e self', getattr self "name" = (Raise e, self') ->
     (forall a, e <> AttributeError a) -> named self = (Raise e, self')) /\
  (plain_attribute (inst_class self) "name" ->
     (forall v, inst_dict self !! "name" = Some v -> named self = (Ok v, self)) /\
     (forall v, inst_dict self !! "name" = None ->
        cls_dict (inst_class self) !! "name" = Some v -> named self = (Ok v, self)) /\
     (inst_dict self !! "name" = None ->
        cls_dict (inst_class self) !! "name" = None ->
        named self = (Ok (PStr "UNNAMED"), self))).
Proof.
  split; [|split; [|split]].
  - intros v self' Hget. by rewrite named_of_first_read, Hget.
  - intros a self' Hget. by rewrite named_of_first_read, Hget.
  - intros e self' Hget Hne. rewrite named_of_first_read, Hget.
    destruct e; try reflexivity. by destruct (Hne attr).
  - intros Hplain. rewrite named_of_first_read, (getattr_plain _ _ Hplain).
    split; [|split].
    + intros v Hv. rewrite Hv, (getattr_plain _ _ Hplain), Hv. reflexivity.
    + intros v Hi Hc. rewrite Hi, Hc, (getattr_plain _ _ Hplain), Hi, Hc. reflexivity.
    + intros Hi Hc. rewrite Hi, Hc. reflexivity.
Qed.

(** ** The base contract *)

(** C5. The members of [Serializable] itself fail with
    [NotImplementedError], and so does each contract method called on a
    class that does not override it; none of them returns a value.  A
    class that does not declare [get_wrapped_type] is thereby told apart
    from a wrapper, whose [get_wrapped_type] is the one it declares. *)
Theorem base_contract_not_implemented (cls : PyClass) (self : Instance) (proto : pyval) :
  Serializable._object2proto self = Raise NotImplementedError /\
  Serializable._proto2object proto = Raise NotImplementedError /\
  Serializable.get_protobuf_schema = Raise NotImplementedError /\
  Serializable.get_wrapped_type = Raise NotImplementedError /\
  (cls_object2proto (inst_class self) = None ->
     object2proto self = Raise NotImplementedError) /\
  (cls_proto2object cls = None ->
     proto2object cls proto = Raise NotImplementedError) /\
  (cls_get_protobuf_schema cls = None ->
     get_protobuf_schema cls = Raise NotImplementedError) /\
  (cls_get_wrapped_type cls = None ->
     get_wrapped_type cls = Raise NotImplementedError) /\
  (forall r, cls_get_wrapped_type cls = Some r -> get_wrapped_type cls = r).
Proof.
  unfold object2proto, proto2object, get_protobuf_schema, get_wrapped_type.
  do 4 (split; [reflexivity|]).
  do 4 (split; [intros ->; reflexivity|]).
  intros r ->. reflexivity.
Qed.

Section Serialize.
Context {pb : Protobuf}.

(** ** serialize: the three branches *)

Lemma serialize_to_bytes_eq (self : Instance) (to_proto : bool) :
  serialize self to_proto true =
    (proto ← object2proto self;
     serialized_data ← call_SerializeToString proto;
     Ok (PBytes (SerializeToString
                   (DataMessage (get_fully_qualified_name self) serialized_data)))).
Proof. reflexivity. Qed.

Lemma serialize_to_proto_eq (self : Instance) :
  serialize self true false = object2proto self.
Proof. reflexivity. Qed.

Lemma serialize_to_bytes_message (self : Instance) (to_proto : bool) (payload : Message) :
  object2proto self = Ok (PMessage payload) ->
  serialize self to_proto true =
    Ok (PBytes (SerializeToString
                  (DataMessage (get_fully_qualified_name self)
                               (SerializeToString payload)))).
Proof. intros Hp. rewrite serialize_to_bytes_eq, Hp. reflexivity. Qed.

Lemma serialize_to_bytes_shape (self : Instance) (to_proto : bool) (v : pyval) :
  serialize self to_proto true = Ok v -> exists b, v = PBytes b.
Proof.
  rewrite serialize_to_bytes_eq.
  destruct (object2proto self) as [p|e]; [|discriminate].
  rewrite bind_Ok.
  destruct (call_SerializeToString p) as [d|e]; [|discriminate].
  rewrite bind_Ok. intros Hv. apply Ok_inj in Hv. eauto.
Qed.

(** C1 (as the code has it). With both flags set the bytes branch is
    taken: the result is that of [serialize(to_proto=False,
    to_bytes=True)], a [bytes] object whenever it is a value, and the
    envelope encoding whenever [_object2proto] returns a message. *)
Theorem serialize_both_flags_is_bytes (self : Instance) :
  serialize self true true = serialize self false true /\
  (forall v, serialize self true true = Ok v -> exists b, v = PBytes b) /\
  (forall payload, object2proto self = Ok (PMessage payload) ->
     serialize self true true =
       Ok (PBytes (SerializeToString
                     (DataMessage (get_fully_qualified_name self)
                                  (SerializeToString payload))))).
Proof.
  split; [reflexivity|]. split.
  - apply serialize_to_bytes_shape.
  - apply serialize_to_bytes_message.
Qed.

(** C3. In bytes mode, on an instance whose [_object2proto] returns the
    message [payload], [serialize] returns the encoding of a
    [DataMessage] whose [obj_type] is the fully-qualified name of the
    instance and whose [content] is the encoding of [payload]. *)
Theorem serialize_to_bytes_envelope
    (self : Instance) (to_proto : bool) (payload : Message) :
  object2proto self = Ok (PMessage payload) ->
  exists blob : Message,
    serialize self to_proto true = Ok (PBytes (SerializeToString blob)) /\
    msg_schema blob = DataMessage_schema /\
    msg_fields blob !! "obj_type" = Some (FStr (get_fully_qualified_name self)) /\
    msg_fields blob !! "content" = Some (FBytes (SerializeToString payload)).
Proof.
  intros Hp.
  exists (DataMessage (get_fully_qualified_name self) (SerializeToString payload)).
  split; [by apply serialize_to_bytes_message|].
  split; [reflexivity|].
  unfold DataMessage; simpl. split.
  - apply lookup_insert_eq.
  - rewrite lookup_insert_ne by discriminate. apply lookup_singleton_eq.
Qed.

(** C6. With neither flag set [serialize] raises the exception that asks
    for a format, whatever the instance, and returns no value. *)
Theorem serialize_no_mode_raises (self : Instance) :
  serialize self false false = Raise (Exception no_format_message) /\
  (forall v, serialize self false false <> Ok v).
Proof. split; [reflexivity | discriminate]. Qed.

(** ** The convenience wrappers *)

Lemma validate_type_ok (v : pyval) (t : pytype) :
  isinstance v t = true -> validate_type v t = Ok v.
Proof. unfold validate_type. intros ->. reflexivity. Qed.

Lemma validate_type_mismatch (v : pyval) (t : pytype) :
  isinstance v t = false -> validate_type v t = Raise (TypeMismatch v (type_name t)).
Proof. unfold validate_type. intros ->. reflexivity. Qed.

(** C7. [to_proto] and [proto] are [serialize(to_proto=True)] followed by
    the check against [Message]; [to_bytes] and [binary] are
    [serialize(to_bytes=True)] followed by the check against [bytes];
    the two members of each pair agree on every instance; a value of the
    expected type is returned as it is and any other value is a
    [TypeMismatch]. *)
Theorem convenience_wrappers (self : Instance) :
  to_proto self = (r ← serialize self true false; validate_type r Message_t) /\
  proto self = to_proto self /\
  to_bytes self = (r ← serialize self true true; validate_type r bytes_t) /\
  binary self = to_bytes self /\
  (forall v, serialize self true false = Ok v ->
     (isinstance v Message_t = true -> to_proto self = Ok v) /\
     (isinstance v Message_t = false ->
        to_proto self = Raise (TypeMismatch v "Message"))) /\
  (forall v, serialize self true true = Ok v ->
     (isinstance v bytes_t = true -> to_bytes self = Ok v) /\
     (isinstance v bytes_t = false ->
        to_bytes self = Raise (TypeMismatch v "bytes"))).
Proof.
  do 4 (split; [reflexivity|]).
  split; intros v Hv; split; intros Hi.
  - unfold to_proto, default_to_bytes. rewrite Hv, bind_Ok.
    by apply validate_type_ok.
  - unfold to_proto, default_to_bytes. rewrite Hv, bind_Ok.
    by rewrite validate_type_mismatch.
  - unfold to_bytes, default_to_proto. rewrite Hv, bind_Ok.
    by apply validate_type_ok.
  - unfold to_bytes, default_to_proto. rewrite Hv, bind_Ok.
    by rewrite validate_type_mismatch.
Qed.

End Serialize.

(** ** The registry built by bind_protobuf *)

Lemma has_schema_true (d : string) (cls : PyClass) :
  has_schema d cls = true <-> get_protobuf_schema cls = Ok d.
Proof.
  unfold has_schema. destruct (get_protobuf_schema cls) as [d'|e].
  - rewrite bool_decide_eq_true. split; congruence.
  - split; discriminate.
Qed.

Lemma bind_protobuf_returns (cls : PyClass) (σ : schema2type_store) (d : string) :
  get_protobuf_schema cls = Ok d ->
  bind_protobuf cls σ =
    Ok (cls, <[d := match σ !! d with
                    | Some _ => PNone
                    | None => PType (qualname cls)
                    end]> σ).
Proof.
  intros Hd. unfold bind_protobuf. rewrite Hd, bind_Ok.
  destruct (σ !! d) as [v|] eqn:Hσ.
  - rewrite bool_decide_eq_true_2 by eauto. reflexivity.
  - rewrite bool_decide_eq_false_2; [reflexivity|]. intros [v Hv]. discriminate.
Qed.

Lemma bind_protobuf_raises (cls : PyClass) (σ : schema2type_store) (e : Exc) :
  get_protobuf_schema cls = Raise e -> bind_protobuf cls σ = Raise e.
Proof. intros He. unfold bind_protobuf. rewrite He. reflexivity. Qed.

Lemma after_bind_lookup (σ : schema2type_store) (cls : PyClass) (d : string) :
  after_bind σ cls !! d =
    if has_schema d cls then reverse_mapping (σ !! d) [cls] else σ !! d.
Proof.
  unfold after_bind, has_schema.
  destruct (get_protobuf_schema cls) as [d'|e] eqn:Hd.
  - rewrite (bind_protobuf_returns _ _ _ Hd). case_bool_decide as Heq.
    + subst d'. rewrite lookup_insert_eq. destruct (σ !! d); reflexivity.
    + rewrite lookup_insert_ne by done. reflexivity.
  - rewrite (bind_protobuf_raises _ _ _ Hd). reflexivity.
Qed.

Lemma bind_all_cons (cls : PyClass) (classes : list PyClass) (σ : schema2type_store) :
  bind_all (cls :: classes) σ = bind_all classes (after_bind σ cls).
Proof. reflexivity. Qed.

Lemma bind_all_app (l1 l2 : list PyClass) (σ : schema2type_store) :
  bind_all (l1 ++ l2) σ = bind_all l2 (bind_all l1 σ).
Proof. unfold bind_all. apply foldl_app. Qed.

(** The store after a sequence of decorations, descriptor by descriptor. *)
Lemma bind_all_lookup (classes : list PyClass) (σ : schema2type_store) (d : string) :
  bind_all classes σ !! d = reverse_mapping (σ !! d) (registered_against d classes).
Proof.
  revert σ. induction classes as [|cls classes IH]; intros σ.
  - simpl. destruct (σ !! d); reflexivity.
  - rewrite bind_all_cons, IH, after_bind_lookup.
    unfold registered_against; simpl.
    destruct (has_schema d cls); [|reflexivity].
    destruct (σ !! d), (List.filter (has_schema d) classes) as [|c1 [|c2 rest]];
      reflexivity.
Qed.

Lemma registered_against_nonempty (d : string) (cls : PyClass) (classes : list PyClass) :
  cls ∈ classes -> get_protobuf_schema cls = Ok d ->
  registered_against d classes <> [].
Proof.
  intros Hin Hd Hnil.
  assert (In cls (registered_against d classes)) as Hf.
  { apply List.filter_In. split; [by apply list_elem_of_In | by apply has_schema_true]. }
  rewrite Hnil in Hf. destruct Hf.
Qed.

Lemma registered_against_two (d : string) (c1 c2 : PyClass) (classes : list PyClass) :
  c1 ∈ classes -> c2 ∈ classes -> c1 <> c2 ->
  get_protobuf_schema c1 = Ok d -> get_protobuf_schema c2 = Ok d ->
  exists a b rest, registered_against d classes = a :: b :: rest.
Proof.
  intros H1 H2 Hne Hd1 Hd2.
  apply list_elem_of_split in H1 as (l1 & l2 & ->).
  assert (c2 ∈ l1 \/ c2 ∈ l2) as Hc2.
  { apply elem_of_app in H2 as [?|H2]; [by left|].
    apply elem_of_cons in H2 as [?|?]; [congruence | by right]. }
  unfold registered_against. rewrite List.filter_app. simpl.
  apply has_schema_true in Hd1 as ->.
  destruct Hc2 as [Hc2|Hc2];
    pose proof (registered_against_nonempty d c2 _ Hc2 Hd2) as Hnil;
    unfold registered_against in Hnil.
  - destruct (List.filter (has_schema d) l1) as [|a l1']; [done|].
    destruct l1' as [|b l1'']; simpl; eauto.
  - destruct (List.filter (has_schema d) l2) as [|b l2']; [done|].
    destruct (List.filter (has_schema d) l1) as [|a [|a' l1']]; simpl; eauto.
Qed.

(** C2. After any sequence of decorations of a fresh store, [schema2type]
    of a descriptor, when set, is either [None] or the class that is the
    only registration against the descriptor; it is that class when there
    is exactly one registration; and it is [None], hence neither of the
    candidates, once two distinct classes were registered against the
    descriptor. *)
Theorem bind_protobuf_reverse_mapping (classes : list PyClass) (d : string) :
  (forall v, bind_all classes ∅ !! d = Some v ->
     v = PNone \/
     exists cls, registered_against d classes = [cls] /\ v = PType (qualname cls)) /\
  (forall cls, registered_against d classes = [cls] ->
     bind_all classes ∅ !! d = Some (PType (qualname cls))) /\
  (forall c1 c2, c1 ∈ classes -> c2 ∈ classes -> qualname c1 <> qualname c2 ->
     get_protobuf_schema c1 = Ok d -> get_protobuf_schema c2 = Ok d ->
     bind_all classes ∅ !! d = Some PNone /\
     bind_all classes ∅ !! d <> Some (PType (qualname c1)) /\
     bind_all classes ∅ !! d <> Some (PType (qualname c2))).
Proof.
  rewrite bind_all_lookup, lookup_empty. split; [|split].
  - intros v Hv. destruct (registered_against d classes) as [|c1 [|c2 rest]];
      simpl in Hv.
    + discriminate.
    + right. exists c1. split; [reflexivity | congruence].
    + left. congruence.
  - intros cls ->. reflexivity.
  - intros c1 c2 H1 H2 Hne Hd1 Hd2.
    destruct (registered_against_two d c1 c2 classes) as (a & b & rest & ->);
      [done | done | congruence | done | done |].
    simpl. repeat split; discriminate.
Qed.

(** C9. A first [bind_protobuf(C)] on a descriptor without [schema2type]
    records [C]; the same call again returns too but leaves [None], a
    different store: the decoration is not idempotent.  And once
    [bind_protobuf(C)] has run, whatever the store was before and whatever
    was decorated in between, a decoration whose class returns the same
    descriptor (that of [C] again included) returns and leaves
    [schema2type] of the descriptor at [None], and no later sequence of
    decorations changes that. *)
Theorem bind_protobuf_not_idempotent
    (σ : schema2type_store) (C C' : PyClass) (between later : list PyClass) (d : string) :
  get_protobuf_schema C = Ok d ->
  get_protobuf_schema C' = Ok d ->
  (σ !! d = None ->
     exists σ1 σ2,
       bind_protobuf C σ = Ok (C, σ1) /\
       σ1 !! d = Some (PType (qualname C)) /\
       bind_protobuf C σ1 = Ok (C, σ2) /\
       σ2 !! d = Some PNone /\
       σ2 <> σ1) /\
  (exists σ', bind_protobuf C' (bind_all (C :: between) σ) = Ok (C', σ') /\
              σ' !! d = Some PNone /\
              bind_all later σ' !! d = Some PNone).
Proof.
  intros HC HC'. split.
  - intros Hfresh.
    exists (<[d := PType (qualname C)]> σ),
           (<[d := PNone]> (<[d := PType (qualname C)]> σ)).
    split; [by rewrite (bind_protobuf_returns _ _ _ HC), Hfresh|].
    split; [apply lookup_insert_eq|].
    split; [by rewrite (bind_protobuf_returns _ _ _ HC), lookup_insert_eq|].
    split; [apply lookup_insert_eq|].
    intros Heq. apply (f_equal (fun m => m !! d)) in Heq.
    rewrite !lookup_insert_eq in Heq. discriminate.
  - assert (is_Some (bind_all (C :: between) σ !! d)) as [v Hv].
    { rewrite bind_all_lookup. unfold registered_against; simpl.
      apply has_schema_true in HC as ->.
      destruct (σ !! d), (List.filter (has_schema d) between) as [|? [|? ?]];
        simpl; eauto. }
    eexists. split; [by apply bind_protobuf_returns|].
    rewrite Hv. split.
    + apply lookup_insert_eq.
    + rewrite bind_all_lookup, lookup_insert_eq.
      destruct (registered_against d later) as [|? [|? ?]]; reflexivity.
Qed.

(** ** More on the registry *)

Lemma registered_against_app (d : string) (l1 l2 : list PyClass) :
  registered_against d (l1 ++ l2) =
    (registered_against d l1 ++ registered_against d l2)%list.
Proof. unfold registered_against. apply List.filter_app. Qed.

Lemma registered_against_nil_iff (d : string) (classes : list PyClass) :
  registered_against d classes = [] <->
  forall cls, cls ∈ classes -> get_protobuf_schema cls <> Ok d.
Proof.
  split.
  - intros Hnil cls Hin Hd. by apply (registered_against_nonempty d cls classes).
  - intros Hall. destruct (registered_against d classes) as [|c rest] eqn:Hreg; [done|].
    assert (In c (registered_against d classes)) as Hc by (rewrite Hreg; by left).
    apply List.filter_In in Hc as [Hin Hs].
    destruct (Hall c); [by apply list_elem_of_In | by apply has_schema_true].
Qed.

Lemma registered_against_Permutation (d : string) (l1 l2 : list PyClass) :
  l1 ≡ₚ l2 -> registered_against d l1 ≡ₚ registered_against d l2.
Proof.
  unfold registered_against. induction 1 as [|x l l' _ IH|x y l|l l' l'' _ IH1 _ IH2]; simpl.
  - done.
  - destruct (has_schema d x); [by constructor | done].
  - destruct (has_schema d x), (has_schema d y); try done. by constructor.
  - by etrans.
Qed.

Lemma reverse_mapping_Permutation (before : option pyval) (r1 r2 : list PyClass) :
  r1 ≡ₚ r2 -> reverse_mapping before r1 = reverse_mapping before r2.
Proof.
  intros Hp. destruct r1 as [|a [|b r1]].
  - apply Permutation_nil_l in Hp as ->. reflexivity.
  - apply Permutation_singleton_l in Hp as <-. reflexivity.
  - destruct r2 as [|a' [|b' r2]].
    + by apply Permutation_nil_r in Hp.
    + by apply Permutation_singleton_r in Hp.
    + destruct before; reflexivity.
Qed.

(** X1. One decoration has exactly one of two outcomes.  Either
    [get_protobuf_schema] raised: the decoration raises the same exception
    and writes nothing.  Or it returned a descriptor: the decoration
    returns the class it was given, [schema2type] of the descriptor
    becomes the class when it was unset and [None] when it was set, no
    other descriptor gains the attribute and every other descriptor keeps
    what it had. *)
Theorem bind_protobuf_outcome (cls : PyClass) (σ : schema2type_store) :
  (exists e, get_protobuf_schema cls = Raise e /\
             bind_protobuf cls σ = Raise e /\
             after_bind σ cls = σ) \/
  (exists d σ', get_protobuf_schema cls = Ok d /\
                bind_protobuf cls σ = Ok (cls, σ') /\
                after_bind σ cls = σ' /\
                σ' !! d = Some (match σ !! d with
                                | Some _ => PNone
                                | None => PType (qualname cls)
                                end) /\
                dom σ' = {[ d ]} ∪ dom σ /\
                forall d', d' <> d -> σ' !! d' = σ !! d').
Proof.
  destruct (get_protobuf_schema cls) as [d|e] eqn:Hd.
  - right. eexists d, _. split; [reflexivity|].
    split; [by apply bind_protobuf_returns|].
    split; [unfold after_bind; by rewrite (bind_protobuf_returns _ _ _ Hd)|].
    split; [apply lookup_insert_eq|].
    split; [apply dom_insert_L|].
    intros d' Hne. by rewrite lookup_insert_ne.
  - left. exists e. split; [reflexivity|].
    split; [by apply bind_protobuf_raises|].
    unfold after_bind. by rewrite (bind_protobuf_raises _ _ _ Hd).
Qed.

(** X2. A sequence of decorations leaves [schema2type] as it was on every
    descriptor that no class of the sequence returns. *)
Theorem bind_all_frame (classes : list PyClass) (σ : schema2type_store) (d : string) :
  (forall cls, cls ∈ classes -> get_protobuf_schema cls <> Ok d) ->
  bind_all classes σ !! d = σ !! d.
Proof.
  intros Hall. rewrite bind_all_lookup.
  apply registered_against_nil_iff in Hall as ->.
  destruct (σ !! d); reflexivity.
Qed.

(** X3. The store does not depend on the order of the decorations: two
    sequences that are permutations of each other leave the same store. *)
Theorem bind_all_order_independent
    (classes classes' : list PyClass) (σ : schema2type_store) :
  classes ≡ₚ classes' -> bind_all classes σ = bind_all classes' σ.
Proof.
  intros Hp. apply map_eq. intros d. rewrite !bind_all_lookup.
  apply reverse_mapping_Permutation. by apply registered_against_Permutation.
Qed.

(** X4. From a fresh store, [schema2type] of a descriptor is unset exactly
    when no class registered against it, is [None] exactly when two or
    more registrations were made against it, and is a class exactly when
    that class is the only registration. *)
Theorem schema2type_by_count (classes : list PyClass) (d : string) :
  (bind_all classes ∅ !! d = None <-> registered_against d classes = []) /\
  (bind_all classes ∅ !! d = Some PNone <->
     (2 <= length (registered_against d classes))%nat) /\
  (forall q, bind_all classes ∅ !! d = Some (PType q) <->
     exists cls, registered_against d classes = [cls] /\ qualname cls = q).
Proof.
  rewrite bind_all_lookup, lookup_empty.
  destruct (registered_against d classes) as [|c1 [|c2 rest]]; simpl.
  - split; [done|]. split; [split; [discriminate | lia]|].
    intros q. split; [discriminate | intros (cls & Hc & _); discriminate].
  - split; [split; discriminate|]. split; [split; [discriminate | lia]|].
    intros q. split.
    + intros Hq. exists c1. split; [reflexivity | congruence].
    + intros (cls & Hc & <-). congruence.
  - split; [split; discriminate|]. split; [split; [lia | reflexivity]|].
    intros q. split; [discriminate | intros (cls & Hc & _); discriminate].
Qed.

(** X5. Running a sequence of decorations a second time leaves [None] on
    every descriptor that a class of the sequence returns, whatever the
    store was. *)
Theorem bind_all_twice (classes : list PyClass) (σ : schema2type_store)
    (cls : PyClass) (d : string) :
  cls ∈ classes -> get_protobuf_schema cls = Ok d ->
  bind_all (classes ++ classes) σ !! d = Some PNone.
Proof.
  intros Hin Hd. rewrite bind_all_lookup, registered_against_app.
  pose proof (registered_against_nonempty d cls classes Hin Hd) as Hne.
  destruct (registered_against d classes) as [|c [|c' rest]]; [done| |];
    destruct (σ !! d); reflexivity.
Qed.

(** ** More on serialize and its wrappers *)

Section Wrappers.
Context {pb : Protobuf}.

(** X6. An exception raised by [_object2proto] comes out unchanged of
    [serialize] in both modes and of the four convenience wrappers. *)
Theorem object2proto_exception_propagates (self : Instance) (e : Exc) :
  object2proto self = Raise e ->
  serialize self true false = Raise e /\
  (forall to_proto, serialize self to_proto true = Raise e) /\
  to_proto self = Raise e /\ proto self = Raise e /\
  to_bytes self = Raise e /\ binary self = Raise e.
Proof.
  intros He.
  assert (forall to_proto, serialize self to_proto true = Raise e) as Hb.
  { intros to_proto. by rewrite serialize_to_bytes_eq, He. }
  assert (serialize self true false = Raise e) as Hp.
  { by rewrite serialize_to_proto_eq. }
  unfold to_proto, proto, to_bytes, binary, default_to_bytes, default_to_proto.
  rewrite !Hb, !Hp. repeat split; done.
Qed.

(** X7. The check of [to_bytes] and [binary] never fails: each is
    [serialize(to_bytes=True)] itself, and what it returns is a [bytes]
    object. *)
Theorem to_bytes_is_serialize (self : Instance) :
  to_bytes self = serialize self true true /\
  binary self = serialize self true true /\
  (forall v, to_bytes self = Ok v -> exists b, v = PBytes b).
Proof.
  assert (to_bytes self = serialize self true true) as Heq.
  { unfold to_bytes, default_to_proto.
    destruct (serialize self true true) as [v|e] eqn:Hs; [|reflexivity].
    destruct (serialize_to_bytes_shape _ _ _ Hs) as [b ->]. reflexivity. }
  split; [exact Heq|]. split; [exact Heq|].
  intros v Hv. rewrite Heq in Hv. by apply serialize_to_bytes_shape in Hv.
Qed.

(** X8. When [to_proto] returns, it returns the message [_object2proto]
    produced, and [to_bytes] returns the encoded envelope whose content is
    the encoding of that same message. *)
Theorem to_proto_then_to_bytes (self : Instance) (v : pyval) :
  to_proto self = Ok v ->
  exists m, v = PMessage m /\
            object2proto self = Ok (PMessage m) /\
            to_bytes self =
              Ok (PBytes (SerializeToString
                            (DataMessage (get_fully_qualified_name self)
                                         (SerializeToString m)))).
Proof.
  unfold to_proto, default_to_bytes. rewrite serialize_to_proto_eq.
  destruct (object2proto self) as [p|e] eqn:Hp; [|discriminate].
  rewrite bind_Ok. unfold validate_type.
  destruct p as [| | | | |m|]; simpl; try discriminate.
  intros Hv. apply Ok_inj in Hv as <-. exists m.
  split; [reflexivity|]. split; [reflexivity|].
  unfold to_bytes, default_to_proto.
  by rewrite (serialize_to_bytes_message _ _ _ Hp).
Qed.

End Wrappers.

(** ** pprint *)


(** ** The definitions run on the concrete classes *)

Import Fixtures.

Example point_object2proto : object2proto (point 1 2) = Ok (PMessage PointPB_1_2).
Proof. reflexivity. Qed.

Example point_named : named (point 1 2) = (Ok (PStr "UNNAMED"), point 1 2).
Proof. reflexivity. Qed.

Example labelled_point_named : named labelled_point = (Ok (PStr "origin"), labelled_point).
Proof. reflexivity. Qed.

(** The getter answered [hasattr] and refuses the second read: [named]
    raises [AttributeError]. *)
Example fickle_named :
  (named (mkInstance Fickle ∅)).1 = Raise (AttributeError "name").
Proof. reflexivity. Qed.

Example misshapen_to_proto :
  to_proto (mkInstance Misshapen ∅) = Raise (TypeMismatch (PStr "not a message") "Message").
Proof. reflexivity. Qed.

Example bare_to_bytes : to_bytes (mkInstance Bare ∅) = Raise NotImplementedError.
Proof. reflexivity. Qed.

(** C1, refuted as stated. On [Point(1, 2)] with both flags set,
    [serialize] does not return the protobuf object that
    [serialize(to_proto=True)] returns: it returns bytes. *)
Lemma serialize_both_flags_not_schema_object :
  serialize (point 1 2) true true <> serialize (point 1 2) true false /\
  serialize (point 1 2) true false = Ok (PMessage PointPB_1_2) /\
  serialize (point 1 2) true true =
    Ok (PBytes (SerializeToString
                  (DataMessage "pkg.Point" (SerializeToString PointPB_1_2)))).
Proof.
  split; [|split].
  - intros Heq. vm_compute in Heq. discriminate Heq.
  - reflexivity.
  - reflexivity.
Qed.

(** C10, refuted as stated. The class [Moody] declares [name] as a
    property whose getter raises [ValueError]: [hasattr] lets it through
    and [named] raises it, returning neither the attribute nor UNNAMED. *)
Lemma named_raises_with_raising_property :
  (getattr (mkInstance Moody ∅) "name").1 = Raise (ValueError "no name today") /\
  (named (mkInstance Moody ∅)).1 = Raise (ValueError "no name today") /\
  (forall v, (named (mkInstance Moody ∅)).1 <> Ok v).
Proof.
  split; [reflexivity|]. split; [reflexivity|].
  intros v Hv. vm_compute in Hv. discriminate Hv.
Qed.

Lemma serialize_to_bytes_envelope_witness :
  exists blob : Message,
    serialize (point 1 2) false true = Ok (PBytes (SerializeToString blob)) /\
    msg_schema blob = DataMessage_schema /\
    msg_fields blob !! "obj_type" = Some (FStr (get_fully_qualified_name (point 1 2))) /\
    msg_fields blob !! "content" = Some (FBytes (SerializeToString PointPB_1_2)).
Proof.
  apply (serialize_to_bytes_envelope (point 1 2) false PointPB_1_2).
  reflexivity.
Defined.

Lemma bind_protobuf_reverse_mapping_witness :
  bind_all [Point; WrapperInt; Pixel] ∅ !! "pkg.PointPB" = Some PNone /\
  bind_all [Point; WrapperInt; Pixel] ∅ !! "pkg.PointPB" <> Some (PType (qualname Point)) /\
  bind_all [Point; WrapperInt; Pixel] ∅ !! "pkg.PointPB" <> Some (PType (qualname Pixel)).
Proof.
  apply (proj2 (proj2 (bind_protobuf_reverse_mapping
                         [Point; WrapperInt; Pixel] "pkg.PointPB")) Point Pixel).
  - apply list_elem_of_here.
  - do 2 apply list_elem_of_further. apply list_elem_of_here.
  - vm_compute. discriminate.
  - reflexivity.
  - reflexivity.
Defined.

Example single_registration :
  bind_all [Point; WrapperInt] ∅ !! "pkg.PointPB" = Some (PType "pkg.Point").
Proof. vm_compute. reflexivity. Qed.

Lemma bind_protobuf_not_idempotent_witness :
  (exists σ1 σ2,
     bind_protobuf Point ∅ = Ok (Point, σ1) /\
     σ1 !! "pkg.PointPB" = Some (PType (qualname Point)) /\
     bind_protobuf Point σ1 = Ok (Point, σ2) /\
     σ2 !! "pkg.PointPB" = Some PNone /\
     σ2 <> σ1) /\
  (exists σ', bind_protobuf Point (bind_all [Point; WrapperInt] ∅) = Ok (Point, σ') /\
              σ' !! "pkg.PointPB" = Some PNone /\
              bind_all [Pixel; Point] σ' !! "pkg.PointPB" = Some PNone).
Proof.
  destruct (bind_protobuf_not_idempotent ∅ Point Point [WrapperInt] [Pixel; Point]
              "pkg.PointPB" eq_refl eq_refl) as [Hfirst Hlater].
  split; [apply Hfirst; reflexivity | exact Hlater].
Defined.

Lemma bind_all_frame_witness :
  bind_all [WrapperInt; Bare] {[ "pkg.PointPB" := PType "pkg.Point" ]} !! "pkg.PointPB"
  = ({[ "pkg.PointPB" := PType "pkg.Point" ]} : schema2type_store) !! "pkg.PointPB".
Proof.
  apply (bind_all_frame [WrapperInt; Bare]).
  intros cls Hin.
  apply elem_of_cons in Hin as [->|Hin]; [vm_compute; discriminate|].
  apply elem_of_cons in Hin as [->|Hin]; [vm_compute; discriminate|].
  by apply elem_of_nil in Hin.
Defined.

Lemma bind_all_order_independent_witness :
  bind_all [Point; WrapperInt; Pixel] ∅ = bind_all [Pixel; Point; WrapperInt] ∅.
Proof.
  apply (bind_all_order_independent [Point; WrapperInt; Pixel] [Pixel; Point; WrapperInt]).
  apply (Permutation_app_comm [Point; WrapperInt] [Pixel]).
Defined.

Lemma bind_all_twice_witness :
  bind_all ([Point; WrapperInt] ++ [Point; WrapperInt]) ∅ !! "pkg.WrapperIntPB"
  = Some PNone.
Proof.
  apply (bind_all_twice [Point; WrapperInt] ∅ WrapperInt "pkg.WrapperIntPB").
  - apply list_elem_of_further, list_elem_of_here.
  - reflexivity.
Defined.

(** [Point] without its coordinates: [_object2proto] raises. *)
Lemma object2proto_exception_propagates_witness :
  serialize (mkInstance Point ∅) true false = Raise (AttributeError "x") /\
  (forall to_proto, serialize (mkInstance Point ∅) to_proto true
                    = Raise (AttributeError "x")) /\
  to_proto (mkInstance Point ∅) = Raise (AttributeError "x") /\
  proto (mkInstance Point ∅) = Raise (AttributeError "x") /\
  to_bytes (mkInstance Point ∅) = Raise (AttributeError "x") /\
  binary (mkInstance Point ∅) = Raise (AttributeError "x").
Proof.
  apply (object2proto_exception_propagates (mkInstance Point ∅) (AttributeError "x")).
  reflexivity.
Defined.

Lemma to_proto_then_to_bytes_witness :
  exists m, PMessage PointPB_1_2 = PMessage m /\
            object2proto (point 1 2) = Ok (PMessage m) /\
            to_bytes (point 1 2) =
              Ok (PBytes (SerializeToString
                            (DataMessage (get_fully_qualified_name (point 1 2))
                                         (SerializeToString m)))).
Proof.
  apply (to_proto_then_to_bytes (point 1 2) (PMessage PointPB_1_2)).
  reflexivity.
Defined.

Example point_pprint (py_str : pyval -> result string) :
  pprint py_str (point 1 2) = (Ok "🌾 UNNAMED (Point)", point 1 2) /\
  pprint py_str labelled_point = (Ok "🌾 origin (Point)", labelled_point) /\
  (pprint py_str (mkInstance Moody ∅)).1 = Raise (ValueError "no name today").
Proof. repeat split; reflexivity. Qed.
